(** * zsh_completion.py: the completion-directive generator and the date helpers

    A shallow embedding of [src/python/auto-completion/zsh/zsh_completion.py].
    Python [str] values are modelled as [string], whose characters stand
    for the code points U+0000 to U+00FF, Python [int] as [Z], and the
    exceptions the script can raise as an explicit error type threaded
    through a small error monad. *)

From Stdlib Require Import ZArith List Bool Lia.
From Stdlib Require Import Strings.String Strings.Ascii Numbers.DecimalString.
From Equations Require Import Equations.
Import ListNotations.

Open Scope string_scope.
Open Scope Z_scope.

(** ** Exceptions and the error monad *)

Inductive exn : Type :=
| NotImplementedError
| AttributeError
| OSError
| ValueError
| OverflowError.

Inductive result (A : Type) : Type :=
| Ok (a : A)
| Raise (e : exn).

Arguments Ok {A} a.
Arguments Raise {A} e.

Definition bind {A B : Type} (m : result A) (k : A -> result B) : result B :=
  match m with
  | Ok a => k a
  | Raise e => Raise e
  end.

Notation "x <- m ;; k" := (bind m (fun x => k))
  (at level 61, m at next level, right associativity).

(** ** Python string primitives *)

Module PyStr.

(** [sep.join(xs)] *)
Fixpoint join (sep : string) (xs : list string) : string :=
  match xs with
  | [] => ""
  | [x] => x
  | x :: rest => x ++ sep ++ join sep rest
  end.

(** [str(n)] for an [int] *)
Definition str (n : Z) : string := NilZero.string_of_int (Z.to_int n).

(** [range(lo, hi)] *)
Definition range (lo hi : Z) : list Z :=
  map (fun i => lo + Z.of_nat i) (seq 0 (Z.to_nat (hi - lo))).

(** Does [s] start with [p]? *)
Fixpoint startswith (p s : string) : bool :=
  match p with
  | EmptyString => true
  | String a p' =>
      match s with
      | EmptyString => false
      | String b s' => Ascii.eqb a b && startswith p' s'
      end
  end.

(** [old in s] *)
Fixpoint contains (old s : string) : bool :=
  startswith old s ||
  match s with
  | EmptyString => false
  | String _ s' => contains old s'
  end.

(** [s.replace(old, new)] for a non-empty [old]: every occurrence of [old],
    scanning from the left and never overlapping, becomes [new]; the text
    put in is not scanned again.  [skip] counts the characters of a matched
    occurrence that are still to be passed over. *)
Fixpoint replace_from (skip : nat) (old new s : string) : string :=
  match s with
  | EmptyString => EmptyString
  | String c s' =>
      match skip with
      | S k => replace_from k old new s'
      | O =>
          if startswith old s
          then new ++ replace_from (String.length old - 1) old new s'
          else String c (replace_from O old new s')
      end
  end.

(** For an empty [old] Python puts [new] before every character and at the
    end. *)
Fixpoint intersperse (new s : string) : string :=
  match s with
  | EmptyString => new
  | String c s' => new ++ String c (intersperse new s')
  end.

Definition replace (old new s : string) : string :=
  match old with
  | EmptyString => intersperse new s
  | String _ _ => replace_from O old new s
  end.

(** [c.lower()] for a code point below U+0100: the capitals are A to Z,
    U+00C0 to U+00D6 and U+00D8 to U+00DE, each 32 below its small
    letter; every other code point is kept. *)
Definition lower_char (c : ascii) : ascii :=
  let n := nat_of_ascii c in
  if ((Nat.leb 65 n && Nat.leb n 90)
      || (Nat.leb 192 n && Nat.leb n 214)
      || (Nat.leb 216 n && Nat.leb n 222))%bool
  then ascii_of_nat (n + 32) else c.

(** [s.lower()] *)
Fixpoint lower (s : string) : string :=
  match s with
  | EmptyString => EmptyString
  | String c s' => String (lower_char c) (lower s')
  end.

Definition is_empty (s : string) : bool :=
  match s with EmptyString => true | _ => false end.


(** Number of occurrences of the character [c] *)
Fixpoint count (c : ascii) (s : string) : nat :=
  match s with
  | EmptyString => O
  | String a s' => (if Ascii.eqb a c then 1 else 0) + count c s'
  end.

End PyStr.

(** ** argparse actions, as far as the script reads them *)

(** The class of an action: the script tests [__class__] against
    [_HelpAction] and [_VersionAction], and [isinstance] against
    [_SubParsersAction]. *)
Inductive action_class : Type :=
| HelpAction
| VersionAction
| SubParsersAction
| OtherAction.

(** [action.nargs]: [None], an [int], or one of argparse's strings
    ("?", "*", "+", ...). *)
Inductive nargs_t : Type :=
| NargsNone
| NargsInt (n : Z)
| NargsStr (s : string).

(** [action.metavar]: [None], a [str], or a tuple whose items are shown
    through [str]. *)
Inductive metavar_t : Type :=
| MetavarNone
| MetavarStr (s : string)
| MetavarTuple (items : list string).

(** [action.type]: [None], a [FileType] instance, a callable with a
    [__name__], or a value without one (a [functools.partial] object, the
    name of a registered type). *)
Inductive type_t : Type :=
| TypeNone
| TypeFileType
| TypeNamed (name : string)
| TypeUnnamed.

Record Action : Type := mkAction {
  cls : action_class;
  option_strings : list string;
  nargs : nargs_t;
  help : option string;
  metavar : metavar_t;
  dest : string;
  type_ : type_t;
  default_class_name : string;      (* [action.default.__class__.__name__] *)
  choices : option (list string)    (* each choice already through [str] *)
}.

(** [argparse.SUPPRESS] *)
Definition SUPPRESS : string := "==SUPPRESS==".
Definition SUPPRESS_HELP : string := SUPPRESS.

(** ** One pass of the loop body (lines 141-221) *)

Definition string_eqb (a b : string) : bool := String.eqb a b.

(** Lines 142-147: the prefix, or [NotImplementedError] for a sub-command
    dispatcher. *)
Definition prefix (action : Action) : result string :=
  match cls action with
  | HelpAction | VersionAction => Ok "'(- *)'"
  | SubParsersAction => Raise NotImplementedError
  | OtherAction => Ok ""
  end.

Definition nargs_is_star_or_plus (n : nargs_t) : bool :=
  match n with
  | NargsStr s => string_eqb s "*" || string_eqb s "+"
  | _ => false
  end.

(** Lines 149-164: the option string and the new value of [position]. *)
Definition optionstr (action : Action) (position : Z) : string * Z :=
  match option_strings action with
  | _ :: _ :: _ =>
      ("{" ++ PyStr.join "," (option_strings action) ++ "}'", position)
  | [o] => (o ++ "'", position)
  | [] =>
      if nargs_is_star_or_plus (nargs action) then ("'*", position)
      else
        match nargs action with
        | NargsInt n =>
            if 1 <? n then
              let old_position := position in
              let position := position + n in
              let optionstr :=
                PyStr.join "," (map PyStr.str (PyStr.range old_position position)) in
              ("{" ++ optionstr ++ "}'", position)
            else (PyStr.str position ++ "'", position + 1)
        | _ => (PyStr.str position ++ "'", position + 1)
        end
  end.

Definition has_option_strings (action : Action) : bool :=
  match option_strings action with
  | [] => false
  | _ => true
  end.

(** Lines 166-174: the help fragment. *)
Definition helpstr (action : Action) : string :=
  match help action with
  | Some h =>
      if negb (PyStr.is_empty h) && negb (string_eqb h SUPPRESS_HELP)
         && has_option_strings action
      then
        let helpstr := PyStr.replace "'" "'\''" (PyStr.replace "]" "\]" h) in
        "[" ++ helpstr ++ "]"
      else ""
  | None => ""
  end.

(** Line 189: [action.type.__name__]. *)
Definition type_name (t : type_t) (default_class_name : string) : result string :=
  match t with
  | TypeFileType => Ok "file"
  | TypeNamed name => Ok name
  | TypeUnnamed => Raise AttributeError
  | TypeNone => Ok default_class_name
  end.

(** Lines 176-194: the metavar before the completion step, or the
    [AttributeError] of line 189. *)
Definition metavar_of (action : Action) : result string :=
  metavar <-
    match metavar action with
    | MetavarStr s => Ok s
    | MetavarTuple items => Ok (PyStr.join " " items)
    | MetavarNone =>
        match nargs action with
        | NargsInt 0 => Ok ""
        | _ =>
            if negb (has_option_strings action) then Ok (dest action)
            else type_name (type_ action) (default_class_name action)
        end
    end ;;
  if negb (PyStr.is_empty metavar)
  then Ok (PyStr.replace ":" "\:" (PyStr.lower metavar))
  else Ok metavar.

Definition choices_truthy (action : Action) : option (list string) :=
  match choices action with
  | Some (c :: cs) => Some (c :: cs)
  | _ => None
  end.

(** Lines 196-211: the completion hint, and the metavar it may clear. *)
Definition completion (action : Action) (metavar : string) : string * string :=
  match choices_truthy action with
  | Some cs => ("(" ++ PyStr.join " " cs ++ ")", metavar)
  | None =>
      if string_eqb metavar "file" then ("_files", " ")
      else if string_eqb metavar "dir" then ("_dirs", " ")
      else if string_eqb metavar "url" then ("_urls", " ")
      else if string_eqb metavar "command" then ("_command_names -e", " ")
      else ("", metavar)
  end.

(** Lines 213-216: a non-empty part gets a leading colon. *)
Definition colon (s : string) : string :=
  if negb (PyStr.is_empty s) then ":" ++ s else s.

(** Lines 218-220: the format string. *)
Definition format_flag (prefix optionstr helpstr metavar completion : string) : string :=
  prefix ++ optionstr ++ helpstr ++ metavar ++ completion ++ "'".

(** The whole body for one action: the directive and the new [position]. *)
Definition flag_of (action : Action) (position : Z) : result (string * Z) :=
  prefix <- prefix action ;;
  let '(optionstr, position) := optionstr action position in
  let helpstr := helpstr action in
  metavar <- metavar_of action ;;
  let '(completion, metavar) := completion action metavar in
  let metavar := colon metavar in
  let completion := colon completion in
  Ok (format_flag prefix optionstr helpstr metavar completion, position).

(** The loop of lines 139-221: [flags] and [position] are threaded through
    the actions in order; the first exception ends the loop. *)
Fixpoint loop (actions : list Action) (flags : list string) (position : Z)
  : result (list string * Z) :=
  match actions with
  | [] => Ok (flags, position)
  | action :: rest =>
      r <- flag_of action position ;;
      let '(flag, position) := r in
      loop rest (flags ++ [flag]) position
  end.

(** ** The script (lines 139-234) *)

(** What the run does to the outside, in order: a file opened for
    writing (created or emptied), a text written to a file, a text written
    to standard output. *)
Inductive event : Type :=
| OpenedForWriting (path : string)
| WroteFile (path : string) (text : string)
| WroteStdout (text : string).

(** What the outside answers: the text of the template file or the
    exception of lines 223-224, the outcome of [open(path, "w")], and the
    outcome of [f.write(text)] on a file and on standard output. *)
Record environment : Type := mkEnvironment {
  read_template : result string;
  open_for_writing : string -> result unit;
  write_file : string -> string -> result unit;
  write_stdout : string -> result unit
}.

Definition programs_token : string := "{{programs}}".
Definition flags_token : string := "{{flags}}".

(** The separator of line 227: a space, a backslash, a newline and two
    spaces. *)
Definition line_separator : string := " \" ++ String (ascii_of_nat 10) "  ".

(** Lines 226-227. *)
Definition substitute (template : string) (BINNAMES flags : list string) : string :=
  let template := PyStr.replace programs_token (PyStr.join " " BINNAMES) template in
  let template := PyStr.replace flags_token (PyStr.join line_separator flags) template in
  template.

(** Lines 229-234: the destination is opened unless it is [-], the text
    is written, and the events so far are kept when a step raises. *)
Definition write_out (env : environment) (ZSH_COMPLETION_FILE template : string)
  : list event * result unit :=
  if negb (string_eqb ZSH_COMPLETION_FILE "-")
  then
    match open_for_writing env ZSH_COMPLETION_FILE with
    | Raise e => ([], Raise e)
    | Ok _ =>
        match write_file env ZSH_COMPLETION_FILE template with
        | Raise e => ([OpenedForWriting ZSH_COMPLETION_FILE], Raise e)
        | Ok _ =>
            ([OpenedForWriting ZSH_COMPLETION_FILE;
              WroteFile ZSH_COMPLETION_FILE template], Ok tt)
        end
    end
  else
    match write_stdout env template with
    | Raise e => ([], Raise e)
    | Ok _ => ([WroteStdout template], Ok tt)
    end.

(** Lines 139-234: the loop runs first; the template is read and the
    destination opened only after it has ended without an exception.  The
    result is what was done to the outside and how the run ended. *)
Definition script (env : environment) (actions : list Action)
  (BINNAMES : list string) (ZSH_COMPLETION_FILE : string)
  : list event * result unit :=
  match loop actions [] 1 with
  | Raise e => ([], Raise e)
  | Ok (flags, _) =>
      match read_template env with
      | Raise e => ([], Raise e)
      | Ok template =>
          write_out env ZSH_COMPLETION_FILE
            (substitute template BINNAMES flags)
      end
  end.

(** An outside in which the template has the given text and every step
    succeeds. *)
Definition friendly (template : string) : environment :=
  mkEnvironment (Ok template) (fun _ => Ok tt) (fun _ _ => Ok tt)
    (fun _ => Ok tt).

(** An outside in which the template file cannot be opened. *)
Definition no_template : environment :=
  mkEnvironment (Raise OSError) (fun _ => Ok tt) (fun _ _ => Ok tt)
    (fun _ => Ok tt).

(** The end-to-end example of the specification. *)
Definition help_flag : Action :=
  mkAction HelpAction ["-h"; "--help"] (NargsInt 0)
    (Some "show this help message and exit") MetavarNone "help" TypeNone
    "str" None.

Definition one_positional : Action :=
  mkAction OtherAction [] (NargsInt 1) None MetavarNone "" (TypeNamed "str")
    "NoneType" None.


(** ** The date helpers (lines 237-274) *)

Module PyDate.

(** A [datetime] built by [strptime(_, "%Y-%m-%d")] has its time of day at
    midnight, and [+ timedelta(days=1)] keeps it there; such a value is
    determined by its proleptic Gregorian ordinal ([toordinal()]), on which
    the comparison, the subtraction and [weekday()] of the library are
    defined. *)
Record datetime : Type := mkDatetime { toordinal : Z }.

Definition MINYEAR : Z := 1.
Definition MAXYEAR : Z := 9999.
Definition MAXORDINAL : Z := 3652059.

Definition is_leap (year : Z) : bool :=
  (year mod 4 =? 0) && (negb (year mod 100 =? 0) || (year mod 400 =? 0)).

Definition days_in_month (year month : Z) : Z :=
  if month =? 2 then (if is_leap year then 29 else 28)
  else if (month =? 4) || (month =? 6) || (month =? 9) || (month =? 11) then 30
  else 31.

Definition days_before_year (year : Z) : Z :=
  let y := year - 1 in
  y * 365 + y / 4 - y / 100 + y / 400.

Definition days_before_month (year month : Z) : Z :=
  fold_right Z.add 0
    (map (days_in_month year) (PyStr.range 1 month)).

Definition ymd2ord (year month day : Z) : Z :=
  days_before_year year + days_before_month year month + day.

(** The constructor's range checks. *)
Definition make_datetime (year month day : Z) : result datetime :=
  if (MINYEAR <=? year) && (year <=? MAXYEAR)
     && (1 <=? month) && (month <=? 12)
     && (1 <=? day) && (day <=? days_in_month year month)
  then Ok (mkDatetime (ymd2ord year month day))
  else Raise ValueError.

Definition digit (c : ascii) : option Z :=
  let n := nat_of_ascii c in
  if (Nat.leb 48 n && Nat.leb n 57)%bool then Some (Z.of_nat (n - 48)) else None.

Definition in_range (lo hi : Z) (c : ascii) : option Z :=
  match digit c with
  | Some v => if (lo <=? v) && (v <=? hi) then Some v else None
  | None => None
  end.

(** The directive [%Y]: four digits. *)
Definition parse_Y (s : string) : option (Z * string) :=
  match s with
  | String a (String b (String c (String d rest))) =>
      match digit a, digit b, digit c, digit d with
      | Some a, Some b, Some c, Some d =>
          Some (((a * 10 + b) * 10 + c) * 10 + d, rest)
      | _, _, _, _ => None
      end
  | _ => None
  end.

Definition expect (c : ascii) (s : string) : option string :=
  match s with
  | String a rest => if Ascii.eqb a c then Some rest else None
  | EmptyString => None
  end.

(** Two characters, the first in [[l1,h1]] and the second in [[l2,h2]]. *)
Definition two (l1 h1 l2 h2 : Z) (s : string) : option (Z * string) :=
  match s with
  | String a (String b rest) =>
      match in_range l1 h1 a, in_range l2 h2 b with
      | Some a, Some b => Some (a * 10 + b, rest)
      | _, _ => None
      end
  | _ => None
  end.

Definition one (l h : Z) (s : string) : option (Z * string) :=
  match s with
  | String a rest =>
      match in_range l h a with
      | Some a => Some (a, rest)
      | None => None
      end
  | EmptyString => None
  end.

(** The alternatives of [%m], in the order the pattern tries them:
    [1[0-2]], [0[1-9]], [[1-9]]. *)
Definition alternatives_m : list (string -> option (Z * string)) :=
  [two 1 1 0 2; two 0 0 1 9; one 1 9].

(** The alternatives of [%d]: [3[01]], [[12]\d], [0[1-9]], [[1-9]],
    and a space followed by [[1-9]]. *)
Definition alternatives_d : list (string -> option (Z * string)) :=
  [two 3 3 0 1; two 1 2 0 9; two 0 0 1 9; one 1 9;
   fun s => match expect " " s with
            | Some rest => one 1 9 rest
            | None => None
            end].

(** Ordered choice: the first alternative after which the rest of the
    pattern, [k], also matches. *)
Fixpoint first_match {A B : Type} (alts : list (string -> option (A * string)))
  (k : A -> string -> option B) (s : string) : option B :=
  match alts with
  | [] => None
  | alt :: more =>
      match alt s with
      | Some (v, rest) =>
          match k v rest with
          | Some r => Some r
          | None => first_match more k s
          end
      | None => first_match more k s
      end
  end.

(** [datetime.strptime(s, "%Y-%m-%d")]: the pattern is matched at the
    start of [s], text left over is an error, and so is a day the month
    does not have. *)
Definition strptime (s : string) : result datetime :=
  let matched :=
    match parse_Y s with
    | Some (year, s1) =>
        match expect "-" s1 with
        | Some s2 =>
            first_match alternatives_m
              (fun month s3 =>
                 match expect "-" s3 with
                 | Some s4 =>
                     first_match alternatives_d
                       (fun day s5 => Some (year, month, day, s5)) s4
                 | None => None
                 end) s2
        | None => None
        end
    | None => None
    end in
  match matched with
  | Some (year, month, day, EmptyString) => make_datetime year month day
  | _ => Raise ValueError
  end.

(** [d.weekday()]: Monday is 0 and Sunday is 6. *)
Definition weekday (d : datetime) : Z := (toordinal d + 6) mod 7.

(** [d + timedelta(days=1)] *)
Definition add_one_day (d : datetime) : result datetime :=
  let o := toordinal d + 1 in
  if (1 <=? o) && (o <=? MAXORDINAL) then Ok (mkDatetime o)
  else Raise OverflowError.

(** [(d2 - d1).days] *)
Definition sub_days (d2 d1 : datetime) : Z := toordinal d2 - toordinal d1.

(** [d1 <= d2] *)
Definition le_dec (d1 d2 : datetime)
  : {toordinal d1 <= toordinal d2} + {toordinal d1 > toordinal d2} :=
  Z_le_gt_dec (toordinal d1) (toordinal d2).

End PyDate.

Import PyDate.

(** Lines 240-243. *)
Definition date_difference (date1 date2 : string) : result Z :=
  d1 <- strptime date1 ;;
  d2 <- strptime date2 ;;
  Ok (Z.abs (sub_days d2 d1)).

(** Lines 250-251. *)
Definition weeks_between_dates (date1 date2 : string) : result Z :=
  r <- date_difference date1 date2 ;;
  Ok (r / 7).

(** Lines 253-254. *)
Definition days_between_dates (date1 date2 : string) : result Z :=
  date_difference date1 date2.

Definition inspect {A : Type} (a : A) : {b : A | a = b} := exist _ a eq_refl.

(** The loop shared by lines 260-263 and 270-273: while [d1 <= d2], count
    the day when [test] holds of its weekday, then move [d1] one day on. *)
Equations? count_days (test : Z -> bool) (d1 d2 : datetime) (count : Z)
  : result Z by wf (Z.to_nat (toordinal d2 + 1 - toordinal d1)) lt :=
  count_days test d1 d2 count with le_dec d1 d2 => {
    | right _ := Ok count
    | left _ with inspect (add_one_day d1) => {
        | exist _ (Raise e) _ := Raise e
        | exist _ (Ok d1') _ :=
            count_days test d1' d2
              (if test (weekday d1) then count + 1 else count) } }.
Proof.
  unfold add_one_day in e.
  destruct ((1 <=? toordinal d1 + 1) && (toordinal d1 + 1 <=? MAXORDINAL));
    inversion e; subst; simpl; lia.
Qed.

(** Lines 256-264. *)
Definition count_sundays (start_date end_date : string) : result Z :=
  d1 <- strptime start_date ;;
  d2 <- strptime end_date ;;
  count_days (fun wd => wd =? 6) d1 d2 0.

(** Lines 266-274. *)
Definition working_days_between (start_date end_date : string) : result Z :=
  d1 <- strptime start_date ;;
  d2 <- strptime end_date ;;
  count_days (fun wd => wd <? 5) d1 d2 0.


(** ** The time helper (lines 245-248) *)

(** The alternatives of [%H]: [2[0-3]], [[0-1]\d], [\d], and a space
    followed by [\d]. *)
Definition alternatives_H : list (string -> option (Z * string)) :=
  [two 2 2 0 3; two 0 1 0 9; one 0 9;
   fun s => match expect " " s with
            | Some rest => one 0 9 rest
            | None => None
            end].

(** The alternatives of [%M]: [[0-5]\d], [\d]. *)
Definition alternatives_M : list (string -> option (Z * string)) :=
  [two 0 5 0 9; one 0 9].

(** The alternatives of [%S]: [6[0-1]], [[0-5]\d], [\d]. *)
Definition alternatives_S : list (string -> option (Z * string)) :=
  [two 6 6 0 1; two 0 5 0 9; one 0 9].

(** [datetime.strptime(s, "%H:%M:%S")]: the date is 1900-01-01 for every
    string, so the value is given by its seconds since midnight; the
    constructor refuses a second above 59. *)
Definition strptime_time (s : string) : result Z :=
  let matched :=
    first_match alternatives_H
      (fun hour s1 =>
         match expect ":" s1 with
         | Some s2 =>
             first_match alternatives_M
               (fun minute s3 =>
                  match expect ":" s3 with
                  | Some s4 =>
                      first_match alternatives_S
                        (fun second s5 => Some (hour, minute, second, s5)) s4
                  | None => None
                  end) s2
         | None => None
         end) s in
  match matched with
  | Some (hour, minute, second, EmptyString) =>
      if (0 <=? hour) && (hour <=? 23) && (0 <=? minute) && (minute <=? 59)
         && (0 <=? second) && (second <=? 59)
      then Ok ((hour * 60 + minute) * 60 + second)
      else Raise ValueError
  | _ => Raise ValueError
  end.

(** Lines 245-248; the [timedelta] returned is given in seconds. *)
Definition time_difference (time1 time2 : string) : result Z :=
  t1 <- strptime_time time1 ;;
  t2 <- strptime_time time2 ;;
  Ok (Z.abs (t2 - t1)).

(** ** Vocabulary of the statements below *)

(** Every occurrence of [c] in [s] comes right after a backslash;
    [after_backslash] says whether the character before [s] was one. *)
Fixpoint escaped (c : ascii) (after_backslash : bool) (s : string) : bool :=
  match s with
  | EmptyString => true
  | String x s' =>
      (if Ascii.eqb x c then after_backslash else true)
      && escaped c (Ascii.eqb x "\") s'
  end.

Definition is_positional (action : Action) : bool :=
  negb (has_option_strings action).

(** The days from ordinal [o1] to ordinal [o2], both included, whose
    weekday satisfies [test]. *)
Definition days_matching (test : Z -> bool) (o1 o2 : Z) : Z :=
  Z.of_nat
    (List.length
       (filter (fun o => test ((o + 6) mod 7)) (PyStr.range o1 (o2 + 1)))).

(** The metavars of lines 198-209 with a completion function of their
    own. *)
Definition completion_functions : list (string * string) :=
  [("file", "_files"); ("dir", "_dirs"); ("url", "_urls");
   ("command", "_command_names -e")].

(** The days among [n] days on end, the first of weekday [w], whose
    weekday satisfies [test]. *)
Fixpoint weekdays_matching (test : Z -> bool) (n : nat) (w : Z) : Z :=
  match n with
  | O => 0
  | S n' => (if test w then 1 else 0) + weekdays_matching test n' ((w + 1) mod 7)
  end.

(** An option whose [type] is a [functools.partial] object. *)
Definition partial_option : Action :=
  mkAction OtherAction ["--base"] NargsNone (Some "a number") MetavarNone
    "base" TypeUnnamed "NoneType" None.

Definition boolean_flag : Action :=
  mkAction OtherAction ["-v"; "--verbose"] (NargsInt 0) (Some "be verbose")
    MetavarNone "verbose" TypeNone "bool" None.

Definition file_option : Action :=
  mkAction OtherAction ["--out"] NargsNone (Some "where to write")
    (MetavarStr "FILE") "out" TypeNone "NoneType" None.

(** Inputs used below. *)


Definition two_aliases : Action :=
  mkAction OtherAction ["a"; "b"] NargsNone None MetavarNone "a" TypeNone
    "NoneType" None.

Definition one_alias : Action :=
  mkAction OtherAction ["-x"] NargsNone None MetavarNone "x" TypeNone
    "NoneType" None.

Definition pair_positional : Action :=
  mkAction OtherAction [] (NargsInt 2) None MetavarNone "pair" TypeNone
    "NoneType" None.

Definition abc_file : Action :=
  mkAction OtherAction ["--in"] NargsNone (Some "input") MetavarNone "in"
    TypeFileType "NoneType" (Some ["a"; "b"; "c"]).

Definition suppressed : Action :=
  mkAction OtherAction ["--secret"] NargsNone (Some SUPPRESS) MetavarNone
    "secret" TypeNone "NoneType" None.

(** * Properties *)

(** ** Strings *)

Lemma append_nil_r (s : string) : s ++ "" = s.
Proof. induction s as [|c s IH]; simpl; [reflexivity | now rewrite IH]. Qed.



Lemma count_app (c : ascii) (s t : string) :
  PyStr.count c (s ++ t) = (PyStr.count c s + PyStr.count c t)%nat.
Proof.
  induction s as [|a s IH]; simpl; [reflexivity | rewrite IH; lia].
Qed.

Lemma range_length (lo n : Z) :
  0 <= n -> List.length (PyStr.range lo (lo + n)) = Z.to_nat n.
Proof.
  intros _. unfold PyStr.range.
  rewrite length_map, length_seq. f_equal. lia.
Qed.

Lemma range_nth (lo n : Z) (i : nat) :
  (i < Z.to_nat n)%nat ->
  nth i (PyStr.range lo (lo + n)) 0 = lo + Z.of_nat i.
Proof.
  intros Hi. unfold PyStr.range.
  replace (lo + n - lo) with n by lia.
  rewrite (nth_indep _ 0 (lo + Z.of_nat 0)) by (rewrite length_map, length_seq; exact Hi).
  rewrite (map_nth (fun i => lo + Z.of_nat i)).
  rewrite seq_nth by exact Hi. reflexivity.
Qed.

(** ** The loop *)



Lemma flag_of_after_prefix (action : Action) (position : Z) (pre : string) :
  prefix action = Ok pre ->
  flag_of action position
  = match metavar_of action with
    | Ok m =>
        Ok (format_flag pre (fst (optionstr action position)) (helpstr action)
              (colon (snd (completion action m)))
              (colon (fst (completion action m))),
            snd (optionstr action position))
    | Raise e => Raise e
    end.
Proof.
  intros H. unfold flag_of. rewrite H. cbn [bind].
  destruct (optionstr action position) as [o p'].
  destruct (metavar_of action) as [m|e]; cbn [bind]; [|reflexivity].
  destruct (completion action m). reflexivity.
Qed.








(** ** The option string *)

(** The claim as worded, at the aliases [a] and [b]: the code computes
    the brace group followed by a quote character, not the brace group
    alone. *)
Lemma two_aliases_optionstr_has_quote :
  fst (optionstr two_aliases 1) = "{a,b}'"
  /\ fst (optionstr two_aliases 1)
       <> "{" ++ PyStr.join "," (option_strings two_aliases) ++ "}".
Proof. split; [reflexivity | discriminate]. Qed.

(** C2 (amended): with two or more aliases the option string is the
    brace-enclosed, comma-joined list of the aliases in their order,
    followed by one quote character; [position] is left as it was. *)
Theorem optionstr_two_or_more_aliases (action : Action) (position : Z) :
  (2 <= List.length (option_strings action))%nat ->
  optionstr action position
    = ("{" ++ PyStr.join "," (option_strings action) ++ "}" ++ "'", position).
Proof.
  intros H. unfold optionstr.
  destruct (option_strings action) as [|a [|b l]]; simpl in H; try lia.
  reflexivity.
Qed.

Lemma optionstr_two_or_more_aliases_witness :
  optionstr two_aliases 1 = ("{a,b}'", 1).
Proof.
  apply (optionstr_two_or_more_aliases two_aliases 1). simpl. lia.
Defined.

(** The claim as worded, at a positional with [nargs=2] and the counter at
    1: the labels are followed by a quote character. *)
Lemma pair_positional_optionstr_has_quote :
  optionstr pair_positional 1 = ("{1,2}'", 3)
  /\ fst (optionstr pair_positional 1)
       <> "{" ++ PyStr.join "," (map PyStr.str (PyStr.range 1 (1 + 2))) ++ "}".
Proof. split; [reflexivity | discriminate]. Qed.

(** C3 (amended): for a positional whose [nargs] is an integer [n > 1], the
    option string is the brace-enclosed, comma-joined list of the [n]
    consecutive integers starting at [position], followed by one quote
    character, and the counter becomes [position + n]. *)
Theorem optionstr_fixed_count_positional (action : Action) (position n : Z) :
  option_strings action = [] ->
  nargs action = NargsInt n ->
  1 < n ->
  optionstr action position
    = ("{" ++ PyStr.join "," (map PyStr.str (PyStr.range position (position + n)))
           ++ "}" ++ "'",
       position + n)
  /\ List.length (PyStr.range position (position + n)) = Z.to_nat n
  /\ forall i, (i < Z.to_nat n)%nat ->
       nth i (PyStr.range position (position + n)) 0 = position + Z.of_nat i.
Proof.
  intros Ho Hn Hgt. split; [|split].
  - unfold optionstr. rewrite Ho, Hn. simpl.
    apply Z.ltb_lt in Hgt. rewrite Hgt. reflexivity.
  - apply range_length. lia.
  - intros i Hi. apply range_nth. exact Hi.
Qed.

Lemma optionstr_fixed_count_positional_witness :
  optionstr pair_positional 5 = ("{5,6}'", 7)
  /\ List.length (PyStr.range 5 (5 + 2)) = 2%nat
  /\ forall i, (i < 2)%nat -> nth i (PyStr.range 5 (5 + 2)) 0 = 5 + Z.of_nat i.
Proof.
  apply (optionstr_fixed_count_positional pair_positional 5 2);
    [reflexivity | reflexivity | lia].
Defined.

(** The claim as worded, at the single alias [-x]: the option string is
    the alias followed by a quote character, not the alias itself. *)
Lemma one_alias_optionstr_has_quote :
  fst (optionstr one_alias 1) = "-x'"
  /\ fst (optionstr one_alias 1) <> "-x".
Proof. split; [reflexivity | discriminate]. Qed.

(** C6 (amended): with exactly one alias the option string is that alias
    followed by one quote character; no brace is added to it, and
    [position] is left as it was. *)
Theorem optionstr_one_alias (action : Action) (position : Z) (alias : string) :
  option_strings action = [alias] ->
  optionstr action position = (alias ++ "'", position)
  /\ PyStr.count "{" (fst (optionstr action position)) = PyStr.count "{" alias
  /\ PyStr.count "}" (fst (optionstr action position)) = PyStr.count "}" alias.
Proof.
  intros H. unfold optionstr. rewrite H. simpl.
  rewrite !count_app. simpl. repeat split; lia.
Qed.

Lemma optionstr_one_alias_witness :
  optionstr one_alias 1 = ("-x'", 1)
  /\ PyStr.count "{" (fst (optionstr one_alias 1)) = PyStr.count "{" "-x"
  /\ PyStr.count "}" (fst (optionstr one_alias 1)) = PyStr.count "}" "-x".
Proof.
  apply (optionstr_one_alias one_alias 1 "-x"). reflexivity.
Defined.

(** ** The completion hint *)

(** C4: when the choices are [a], [b] and [c], the completion hint is
    [(a b c)] whatever the metavar (and so whatever the type it was derived
    from) is; the branches for [file], [dir], [url] and [command] are not
    reached and the metavar is not cleared. *)
Theorem completion_choices_abc (action : Action) (metavar : string) :
  choices action = Some ["a"; "b"; "c"] ->
  completion action metavar = ("(a b c)", metavar).
Proof.
  intros H. unfold completion, choices_truthy. rewrite H. reflexivity.
Qed.

Lemma completion_choices_abc_witness :
  completion abc_file "file" = ("(a b c)", "file").
Proof.
  apply (completion_choices_abc abc_file "file"). reflexivity.
Defined.

Example abc_file_directive :
  flag_of abc_file 1 = Ok ("--in'[input]:file:(a b c)'", 1).
Proof. reflexivity. Qed.

(** ** The help fragment *)

Lemma helpstr_absent (action : Action) :
  help action = None -> helpstr action = "".
Proof. intros H. unfold helpstr. now rewrite H. Qed.

Lemma helpstr_suppressed (action : Action) :
  help action = Some SUPPRESS_HELP -> helpstr action = "".
Proof. intros H. unfold helpstr. now rewrite H. Qed.

Lemma helpstr_positional (action : Action) :
  option_strings action = [] -> helpstr action = "".
Proof.
  intros H. unfold helpstr, has_option_strings. rewrite H.
  destruct (help action) as [h|]; [|reflexivity].
  now rewrite andb_false_r.
Qed.

(** C7: when the help text is absent or is the suppression sentinel, and
    for every positional whatever its help text, the help fragment is
    empty, and the directive is made of the prefix, the option string, the
    metavar and the completion parts and the closing quote only. *)
Theorem no_help_fragment (action : Action) (position : Z) :
  help action = None \/ help action = Some SUPPRESS_HELP
  \/ option_strings action = [] ->
  helpstr action = ""
  /\ flag_of action position
     = (prefix <- prefix action ;;
        let '(optionstr, position) := optionstr action position in
        metavar <- metavar_of action ;;
        let '(completion, metavar) := completion action metavar in
        Ok (prefix ++ optionstr ++ colon metavar ++ colon completion ++ "'",
            position)).
Proof.
  intros H.
  assert (E : helpstr action = "").
  { destruct H as [H|[H|H]];
      [apply helpstr_absent | apply helpstr_suppressed | apply helpstr_positional];
      exact H. }
  split; [exact E|].
  unfold flag_of, format_flag. rewrite E.
  destruct (prefix action); simpl; [|reflexivity].
  destruct (optionstr action position).
  destruct (metavar_of action) as [m|e]; simpl; [|reflexivity].
  destruct (completion action m). reflexivity.
Qed.

Lemma no_help_fragment_witness :
  helpstr suppressed = ""
  /\ flag_of suppressed 1
     = (prefix <- prefix suppressed ;;
        let '(optionstr, position) := optionstr suppressed 1 in
        metavar <- metavar_of suppressed ;;
        let '(completion, metavar) := completion suppressed metavar in
        Ok (prefix ++ optionstr ++ colon metavar ++ colon completion ++ "'",
            position)).
Proof.
  apply (no_help_fragment suppressed 1). right. left. reflexivity.
Defined.

Example suppressed_directive :
  flag_of suppressed 1 = Ok ("--secret':nonetype'", 1).
Proof. reflexivity. Qed.

Example positional_with_help_directive :
  flag_of (mkAction OtherAction [] NargsNone (Some "the input") MetavarNone
             "input" TypeNone "NoneType" None) 1
  = Ok ("1':input'", 2).
Proof. reflexivity. Qed.

(** ** The closing quote *)




(** ** Template substitution *)

Lemma replace_from_cons (old new : string) (c : ascii) (s : string) :
  PyStr.replace_from 0 old new (String c s)
  = if PyStr.startswith old (String c s)
    then new ++ PyStr.replace_from (String.length old - 1) old new s
    else String c (PyStr.replace_from 0 old new s).
Proof. reflexivity. Qed.

Ltac next_char H s :=
  destruct s as [|? s];
  [ simpl in H; discriminate
  | simpl in H |- *;
    match type of H with
    | (?b && _)%bool = true => destruct b; [simpl in H |- * | discriminate]
    end ].

(** No occurrence of the token straddles the end of [s] in [s ++ token]:
    the token has no proper prefix that is also a suffix of it. *)
Lemma flags_token_no_overlap (s : string) :
  PyStr.startswith flags_token (s ++ flags_token) = true ->
  s = "" \/ PyStr.startswith flags_token s = true.
Proof.
  intros H. destruct s as [|c s]; [left; reflexivity | right].
  unfold flags_token in *. simpl in H |- *.
  match type of H with
  | (?b && _)%bool = true => destruct b; [simpl in H |- * | discriminate]
  end.
  do 8 (next_char H s).
  reflexivity.
Qed.

Lemma replace_flags_at_end (new s : string) :
  PyStr.contains flags_token s = false ->
  PyStr.replace_from 0 flags_token new (s ++ flags_token) = s ++ new.
Proof.
  induction s as [|c s IH]; intros H.
  - simpl. now rewrite append_nil_r.
  - change (String c s ++ flags_token) with (String c (s ++ flags_token)).
    rewrite replace_from_cons.
    simpl in H. apply orb_false_iff in H. destruct H as [Hhead Htail].
    destruct (PyStr.startswith flags_token (String c (s ++ flags_token))) eqn:E.
    + apply (flags_token_no_overlap (String c s)) in E.
      destruct E as [E|E]; [discriminate|].
      unfold flags_token in E. simpl in E. rewrite E in Hhead. discriminate.
    + rewrite (IH Htail). reflexivity.
Qed.

(** The claim as worded, with a program name that is itself the flags
    token: the second replacement rewrites the name too. *)
Lemma substitute_rescans_program_names :
  substitute "{{programs}}{{flags}}" ["{{flags}}"] ["-x'"] = "-x'-x'"
  /\ substitute "{{programs}}{{flags}}" ["{{flags}}"] ["-x'"]
     <> PyStr.join " " ["{{flags}}"] ++ PyStr.join line_separator ["-x'"].
Proof. split; [reflexivity | discriminate]. Qed.

(** C5 (amended): for the template made of [{{programs}}] followed by
    [{{flags}}] and nothing else, when the space-joined program names do
    not contain the token [{{flags}}], the result is the space-joined
    program names followed by the separator-joined directives. *)
Theorem substitute_two_placeholders (BINNAMES flags : list string) :
  PyStr.contains flags_token (PyStr.join " " BINNAMES) = false ->
  substitute "{{programs}}{{flags}}" BINNAMES flags
    = PyStr.join " " BINNAMES ++ PyStr.join line_separator flags.
Proof.
  intros H. unfold substitute.
  change (PyStr.replace programs_token (PyStr.join " " BINNAMES)
            "{{programs}}{{flags}}")
    with (PyStr.join " " BINNAMES ++ flags_token).
  apply (replace_flags_at_end _ _ H).
Qed.

Lemma substitute_two_placeholders_witness :
  substitute "{{programs}}{{flags}}" ["pdd"] ["-x'"; "1'"]
    = PyStr.join " " ["pdd"] ++ PyStr.join line_separator ["-x'"; "1'"].
Proof.
  apply (substitute_two_placeholders ["pdd"] ["-x'"; "1'"]). reflexivity.
Defined.

(** ** Dates *)

Lemma make_datetime_raises (y m d : Z) (e : exn) :
  make_datetime y m d = Raise e -> e = ValueError.
Proof.
  unfold make_datetime.
  destruct ((MINYEAR <=? y) && (y <=? MAXYEAR) && (1 <=? m) && (m <=? 12)
            && (1 <=? d) && (d <=? days_in_month y m));
    intros H; inversion H; reflexivity.
Qed.

Lemma strptime_raises (s : string) (e : exn) :
  strptime s = Raise e -> e = ValueError.
Proof.
  unfold strptime.
  match goal with
  | |- match ?m with _ => _ end = _ -> _ => destruct m as [[[[y mo] d] rest]|]
  end.
  - destruct rest.
    + apply make_datetime_raises.
    + intros H; inversion H; reflexivity.
  - intros H; inversion H; reflexivity.
Qed.

Lemma date_difference_value (date1 date2 : string) (d1 d2 : datetime) :
  strptime date1 = Ok d1 -> strptime date2 = Ok d2 ->
  date_difference date1 date2 = Ok (Z.abs (toordinal d2 - toordinal d1)).
Proof.
  intros H1 H2. unfold date_difference. rewrite H1, H2. reflexivity.
Qed.

Lemma date_difference_sym (date1 date2 : string) :
  date_difference date1 date2 = date_difference date2 date1.
Proof.
  unfold date_difference, sub_days.
  destruct (strptime date1) as [d1|e1] eqn:E1;
    destruct (strptime date2) as [d2|e2] eqn:E2; simpl.
  - f_equal. lia.
  - reflexivity.
  - reflexivity.
  - apply strptime_raises in E1, E2. now subst.
Qed.

(** C9: [days_between_dates] is [date_difference], [weeks_between_dates] is
    [date_difference] floor-divided by 7, and [date_difference] does not
    depend on the order of its arguments; for two dates that parse, the
    three return a number. *)
Theorem date_helpers_agree (date1 date2 : string) :
  days_between_dates date1 date2 = date_difference date1 date2
  /\ weeks_between_dates date1 date2
     = (r <- date_difference date1 date2 ;; Ok (r / 7))
  /\ date_difference date1 date2 = date_difference date2 date1
  /\ forall d1 d2, strptime date1 = Ok d1 -> strptime date2 = Ok d2 ->
       date_difference date1 date2 = Ok (Z.abs (toordinal d2 - toordinal d1))
       /\ days_between_dates date1 date2
          = Ok (Z.abs (toordinal d2 - toordinal d1))
       /\ weeks_between_dates date1 date2
          = Ok (Z.abs (toordinal d2 - toordinal d1) / 7).
Proof.
  split; [reflexivity|]. split; [reflexivity|].
  split; [apply date_difference_sym|].
  intros d1 d2 H1 H2.
  unfold days_between_dates, weeks_between_dates.
  rewrite (date_difference_value _ _ _ _ H1 H2). repeat split.
Qed.

Lemma date_helpers_agree_witness :
  date_difference "2023-01-01" "2023-12-31" = Ok (Z.abs (738885 - 738521))
  /\ days_between_dates "2023-01-01" "2023-12-31" = Ok (Z.abs (738885 - 738521))
  /\ weeks_between_dates "2023-01-01" "2023-12-31"
     = Ok (Z.abs (738885 - 738521) / 7).
Proof.
  apply (proj2 (proj2 (proj2 (date_helpers_agree "2023-01-01" "2023-12-31")))
           (mkDatetime 738521) (mkDatetime 738885));
    vm_compute; reflexivity.
Defined.

Example year_2023 :
  date_difference "2023-01-01" "2023-12-31" = Ok 364
  /\ date_difference "2023-12-31" "2023-01-01" = Ok 364
  /\ weeks_between_dates "2023-01-01" "2023-12-31" = Ok 52
  /\ days_between_dates "2023-01-01" "2023-12-31" = Ok 364
  /\ count_sundays "2023-01-01" "2023-12-31" = Ok 53
  /\ working_days_between "2023-01-01" "2023-12-31" = Ok 260.
Proof. repeat split; vm_compute; reflexivity. Qed.

Lemma count_days_after (test : Z -> bool) (d1 d2 : datetime) (count : Z) :
  toordinal d2 < toordinal d1 -> count_days test d1 d2 count = Ok count.
Proof.
  intros H. rewrite count_days_equation_1.
  destruct (le_dec d1 d2) as [Hle|Hgt]; simpl; [lia | reflexivity].
Qed.

(** C10: when both strings parse and the start date is strictly after the
    end date, [count_sundays] and [working_days_between] return 0. *)
Theorem counts_zero_when_start_after_end
  (start_date end_date : string) (d1 d2 : datetime) :
  strptime start_date = Ok d1 ->
  strptime end_date = Ok d2 ->
  toordinal d2 < toordinal d1 ->
  count_sundays start_date end_date = Ok 0
  /\ working_days_between start_date end_date = Ok 0.
Proof.
  intros H1 H2 Hlt. unfold count_sundays, working_days_between.
  rewrite H1, H2. simpl.
  split; apply count_days_after; exact Hlt.
Qed.

Lemma counts_zero_when_start_after_end_witness :
  count_sundays "2023-12-31" "2023-01-01" = Ok 0
  /\ working_days_between "2023-12-31" "2023-01-01" = Ok 0.
Proof.
  apply (counts_zero_when_start_after_end "2023-12-31" "2023-01-01"
           (mkDatetime 738885) (mkDatetime 738521));
    [vm_compute; reflexivity | vm_compute; reflexivity | simpl; lia].
Defined.


(** * Further properties of the generator *)

Lemma flag_of_position (action : Action) (position : Z) (flag : string) (position' : Z) :
  flag_of action position = Ok (flag, position') ->
  position' = snd (optionstr action position).
Proof.
  intros H. destruct (prefix action) as [pre|e] eqn:P.
  - rewrite (flag_of_after_prefix action position pre P) in H.
    destruct (metavar_of action); inversion H; reflexivity.
  - unfold flag_of in H. rewrite P in H. discriminate.
Qed.

Lemma optionstr_position_le (action : Action) (position : Z) :
  position <= snd (optionstr action position).
Proof.
  unfold optionstr.
  destruct (option_strings action) as [|a [|b l]]; simpl; try lia.
  destruct (nargs_is_star_or_plus (nargs action)); simpl; [lia|].
  destruct (nargs action) as [|n|s]; simpl; try lia.
  destruct (1 <? n) eqn:E; simpl; [apply Z.ltb_lt in E|]; lia.
Qed.

Lemma optionstr_position_with_aliases (action : Action) (position : Z) :
  has_option_strings action = true ->
  snd (optionstr action position) = position.
Proof.
  unfold has_option_strings, optionstr.
  destruct (option_strings action) as [|a [|b l]]; [discriminate| |]; reflexivity.
Qed.






(** X3: the positional counter never goes down along the loop. *)
Theorem position_never_decreases (actions : list Action) :
  forall flags position flags' position',
    loop actions flags position = Ok (flags', position') ->
    position <= position'.
Proof.
  induction actions as [|a rest IH]; intros flags position flags' position' H.
  - simpl in H. inversion H. lia.
  - simpl in H. destruct (flag_of a position) as [[flag p1]|e] eqn:E;
      simpl in H; [|discriminate].
    apply IH in H. apply flag_of_position in E.
    pose proof (optionstr_position_le a position). lia.
Qed.

Lemma position_never_decreases_witness : 1 <= 4.
Proof.
  apply (position_never_decreases [help_flag; pair_positional; one_positional]
           [] 1
           ["'(- *)'{-h,--help}'[show this help message and exit]'";
            "{1,2}':pair'"; "3''"] 4).
  reflexivity.
Defined.

(** X4: actions with aliases do not take part in the numbering: the loop
    over the positionals alone, started at the same counter, ends with the
    same counter. *)
Theorem options_do_not_move_counter (actions : list Action) :
  forall flags position flags' position',
    loop actions flags position = Ok (flags', position') ->
    forall flags0, exists flags'',
      loop (filter is_positional actions) flags0 position
        = Ok (flags'', position').
Proof.
  induction actions as [|a rest IH];
    intros flags position flags' position' H flags0.
  - simpl in H. inversion H; subst. exists flags0. reflexivity.
  - simpl in H. destruct (flag_of a position) as [[flag p1]|e] eqn:E;
      simpl in H; [|discriminate].
    simpl. unfold is_positional at 1.
    destruct (has_option_strings a) eqn:Ha; simpl.
    + pose proof (flag_of_position _ _ _ _ E) as Hp.
      rewrite (optionstr_position_with_aliases a position Ha) in Hp. subst p1.
      apply (IH _ _ _ _ H).
    + rewrite E. simpl. apply (IH _ _ _ _ H).
Qed.

Lemma options_do_not_move_counter_witness :
  exists flags'',
    loop (filter is_positional [help_flag; pair_positional; one_alias]) [] 1
      = Ok (flags'', 3).
Proof.
  apply (options_do_not_move_counter [help_flag; pair_positional; one_alias]
           [] 1
           ["'(- *)'{-h,--help}'[show this help message and exit]'";
            "{1,2}':pair'"; "-x':nonetype'"] 3).
  reflexivity.
Defined.

(** ** Escaping *)

Lemma replace_char_cons (a : ascii) (new : string) (c : ascii) (s : string) :
  PyStr.replace (String a "") new (String c s)
  = (if Ascii.eqb a c then new else String c "")
    ++ PyStr.replace (String a "") new s.
Proof.
  unfold PyStr.replace. rewrite replace_from_cons.
  simpl PyStr.startswith. rewrite andb_true_r.
  destruct (Ascii.eqb a c); reflexivity.
Qed.

Lemma replace_char_absent (a : ascii) (new s : string) :
  PyStr.count a s = 0%nat -> PyStr.replace (String a "") new s = s.
Proof.
  induction s as [|c s IH]; intros H; [reflexivity|].
  rewrite replace_char_cons. simpl in H.
  rewrite Ascii.eqb_sym.
  destruct (Ascii.eqb c a); [discriminate|].
  rewrite (IH H). reflexivity.
Qed.

Lemma escaped_after_replace (c : ascii) (s : string) :
  Ascii.eqb c "\" = false ->
  forall after_backslash,
    escaped c after_backslash
      (PyStr.replace (String c "") (String "\" (String c "")) s) = true.
Proof.
  intros Hc.
  assert (Hc' : Ascii.eqb "\" c = false) by (rewrite Ascii.eqb_sym; exact Hc).
  induction s as [|x s IH]; intros b; [reflexivity|].
  rewrite replace_char_cons.
  destruct (Ascii.eqb c x) eqn:E.
  - apply Ascii.eqb_eq in E. subst x.
    cbn [append escaped]. rewrite Hc', Ascii.eqb_refl, Hc.
    apply IH.
  - assert (E' : Ascii.eqb x c = false) by (rewrite Ascii.eqb_sym; exact E).
    cbn [append escaped]. rewrite E'. apply IH.
Qed.

Lemma escaped_bracket_after_quotes (s : string) :
  forall after_backslash,
    escaped "]" after_backslash s = true ->
    escaped "]" after_backslash (PyStr.replace "'" "'\''" s) = true.
Proof.
  induction s as [|x s IH]; intros b H; [reflexivity|].
  rewrite replace_char_cons. simpl in H.
  apply andb_true_iff in H. destruct H as [Hx Hs].
  destruct (Ascii.eqb "'" x) eqn:E.
  - apply Ascii.eqb_eq in E. subst x. simpl in Hs |- *. apply IH. exact Hs.
  - simpl. rewrite Hx. simpl. apply IH. exact Hs.
Qed.

Lemma count_quote_after_brackets (s : string) :
  PyStr.count "'" (PyStr.replace "]" "\]" s) = PyStr.count "'" s.
Proof.
  induction s as [|x s IH]; [reflexivity|].
  rewrite replace_char_cons, count_app, IH.
  destruct (Ascii.eqb "]" x) eqn:E.
  - apply Ascii.eqb_eq in E. subst x. reflexivity.
  - simpl. lia.
Qed.

Lemma count_quote_after_quotes (s : string) :
  PyStr.count "'" (PyStr.replace "'" "'\''" s) = (3 * PyStr.count "'" s)%nat.
Proof.
  induction s as [|x s IH]; [reflexivity|].
  rewrite replace_char_cons, count_app, IH.
  destruct (Ascii.eqb "'" x) eqn:E.
  - apply Ascii.eqb_eq in E. subst x. simpl. lia.
  - simpl. rewrite Ascii.eqb_sym, E. lia.
Qed.

Lemma helpstr_shown (action : Action) (h : string) :
  help action = Some h -> h <> "" -> h <> SUPPRESS_HELP ->
  option_strings action <> [] ->
  helpstr action
  = "[" ++ PyStr.replace "'" "'\''" (PyStr.replace "]" "\]" h) ++ "]".
Proof.
  intros Hh Hne Hsup Hopt. unfold helpstr, has_option_strings. rewrite Hh.
  destruct h as [|c h]; [contradiction|]. simpl PyStr.is_empty.
  unfold string_eqb.
  destruct (String.eqb (String c h) SUPPRESS_HELP) eqn:E;
    [apply String.eqb_eq in E; contradiction|].
  destruct (option_strings action); [contradiction|]. reflexivity.
Qed.

(** X5: in a help fragment that is shown, the text between the outer
    brackets has every closing bracket right after a backslash, and three
    quote characters for each quote of the help text. *)
Theorem help_fragment_is_escaped (action : Action) (h : string) :
  help action = Some h -> h <> "" -> h <> SUPPRESS_HELP ->
  option_strings action <> [] ->
  exists body,
    helpstr action = "[" ++ body ++ "]"
    /\ escaped "]" false body = true
    /\ PyStr.count "'" body = (3 * PyStr.count "'" h)%nat.
Proof.
  intros Hh Hne Hsup Hopt.
  exists (PyStr.replace "'" "'\''" (PyStr.replace "]" "\]" h)).
  split; [apply helpstr_shown; assumption|]. split.
  - apply escaped_bracket_after_quotes.
    apply (escaped_after_replace "]" h); reflexivity.
  - rewrite count_quote_after_quotes, count_quote_after_brackets. reflexivity.
Qed.

Lemma help_fragment_is_escaped_witness :
  exists body,
    helpstr (mkAction OtherAction ["-x"] NargsNone (Some "it's [x]")
               MetavarNone "x" TypeNone "NoneType" None)
      = "[" ++ body ++ "]"
    /\ escaped "]" false body = true
    /\ PyStr.count "'" body = (3 * PyStr.count "'" "it's [x]")%nat.
Proof.
  apply (help_fragment_is_escaped
           (mkAction OtherAction ["-x"] NargsNone (Some "it's [x]")
              MetavarNone "x" TypeNone "NoneType" None) "it's [x]");
    [reflexivity | discriminate | discriminate | discriminate].
Defined.

(** X6: a help text with no closing bracket and no quote is shown as it
    is, between brackets. *)
Theorem help_fragment_plain (action : Action) (h : string) :
  help action = Some h -> h <> "" -> h <> SUPPRESS_HELP ->
  option_strings action <> [] ->
  PyStr.count "]" h = 0%nat -> PyStr.count "'" h = 0%nat ->
  helpstr action = "[" ++ h ++ "]".
Proof.
  intros Hh Hne Hsup Hopt Hb Hq.
  rewrite (helpstr_shown action h Hh Hne Hsup Hopt).
  rewrite (replace_char_absent "]" "\]" h Hb).
  rewrite (replace_char_absent "'" "'\''" h Hq). reflexivity.
Qed.

Lemma help_fragment_plain_witness :
  helpstr help_flag = "[" ++ "show this help message and exit" ++ "]".
Proof.
  apply (help_fragment_plain help_flag "show this help message and exit");
    [reflexivity | discriminate | discriminate | discriminate
    | reflexivity | reflexivity].
Defined.

Lemma lower_char_idempotent (c : ascii) :
  PyStr.lower_char (PyStr.lower_char c) = PyStr.lower_char c.
Proof.
  destruct c as [[] [] [] [] [] [] [] []]; reflexivity.
Qed.

Lemma lower_idempotent (s : string) : PyStr.lower (PyStr.lower s) = PyStr.lower s.
Proof.
  induction s as [|c s IH]; simpl; [reflexivity|].
  now rewrite lower_char_idempotent, IH.
Qed.

Lemma lower_app (a b : string) :
  PyStr.lower (a ++ b) = PyStr.lower a ++ PyStr.lower b.
Proof. induction a as [|x a IH]; simpl; [reflexivity | now rewrite IH]. Qed.

Lemma lower_after_colon_escape (s : string) :
  PyStr.lower s = s ->
  PyStr.lower (PyStr.replace ":" "\:" s) = PyStr.replace ":" "\:" s.
Proof.
  induction s as [|x s IH]; intros H; [reflexivity|].
  simpl in H. injection H as Hx Hs.
  rewrite replace_char_cons, lower_app, (IH Hs).
  destruct (Ascii.eqb ":" x); [reflexivity|].
  cbn [PyStr.lower]. rewrite Hx. reflexivity.
Qed.

(** X7: a metavar that lines 176-194 produce is in lower case, and each
    of its colons comes right after a backslash. *)
Theorem metavar_lower_case_and_escaped (action : Action) (m : string) :
  metavar_of action = Ok m ->
  PyStr.lower m = m /\ escaped ":" false m = true.
Proof.
  unfold metavar_of.
  match goal with
  | |- bind ?r _ = _ -> _ => destruct r as [raw|e]
  end; cbn [bind]; [|discriminate].
  destruct (negb (PyStr.is_empty raw)) eqn:N; intros H.
  - assert (Hm : PyStr.replace ":" "\:" (PyStr.lower raw) = m) by congruence.
    rewrite <- Hm. split.
    + apply lower_after_colon_escape. apply lower_idempotent.
    + apply (escaped_after_replace ":"). reflexivity.
  - assert (Hm : raw = m) by congruence.
    destruct raw; [|discriminate]. rewrite <- Hm. split; reflexivity.
Qed.

Lemma metavar_lower_case_and_escaped_witness :
  PyStr.lower "file\:name" = "file\:name"
  /\ escaped ":" false "file\:name" = true.
Proof.
  apply (metavar_lower_case_and_escaped
           (mkAction OtherAction ["--out"] NargsNone None
              (MetavarStr "FILE:Name") "out" TypeNone "NoneType" None)
           "file\:name").
  reflexivity.
Defined.

Example lower_beyond_ascii :
  PyStr.lower ("gr" ++ String (ascii_of_nat 214) "SSE")
  = "gr" ++ String (ascii_of_nat 246) "sse"
  /\ PyStr.lower (String (ascii_of_nat 215) (String (ascii_of_nat 223) ""))
     = String (ascii_of_nat 215) (String (ascii_of_nat 223) "").
Proof. split; reflexivity. Qed.

(** ** The metavar and completion parts of a directive *)

(** X8: an action that takes no value ([nargs] 0, no metavar given, no
    choices) gets a directive with neither a metavar nor a completion
    part: the prefix, the option string, the help fragment and the closing
    quote. *)
Theorem valueless_action_directive (action : Action) (position : Z) :
  metavar action = MetavarNone ->
  nargs action = NargsInt 0 ->
  choices_truthy action = None ->
  flag_of action position
  = (prefix <- prefix action ;;
     Ok (prefix ++ fst (optionstr action position) ++ helpstr action ++ "'",
         snd (optionstr action position))).
Proof.
  intros Hm Hn Hc. unfold flag_of.
  destruct (prefix action) as [pre|e]; simpl; [|reflexivity].
  destruct (optionstr action position) as [o p'].
  assert (M : metavar_of action = Ok "").
  { unfold metavar_of. rewrite Hm, Hn. reflexivity. }
  rewrite M. unfold completion. rewrite Hc. reflexivity.
Qed.

Lemma valueless_action_directive_witness :
  flag_of boolean_flag 1
  = (prefix <- prefix boolean_flag ;;
     Ok (prefix ++ fst (optionstr boolean_flag 1) ++ helpstr boolean_flag ++ "'",
         snd (optionstr boolean_flag 1))).
Proof.
  apply (valueless_action_directive boolean_flag 1); reflexivity.
Defined.

Example boolean_flag_directive :
  flag_of boolean_flag 1 = Ok ("{-v,--verbose}'[be verbose]'", 1).
Proof. reflexivity. Qed.

(** X9: a metavar given as a string that reads [file], [dir], [url] or
    [command] in any letter case, on an action without choices, is blanked
    out and followed by the completion function of that kind. *)
Theorem named_metavar_completion
  (action : Action) (position : Z) (m kind function : string) :
  In (kind, function) completion_functions ->
  metavar action = MetavarStr m ->
  PyStr.lower m = kind ->
  choices_truthy action = None ->
  flag_of action position
  = (prefix <- prefix action ;;
     Ok (prefix ++ fst (optionstr action position) ++ helpstr action
           ++ ": :" ++ function ++ "'",
         snd (optionstr action position))).
Proof.
  intros Hin Hm Hl Hc. unfold flag_of.
  destruct (prefix action) as [pre|e]; simpl; [|reflexivity].
  destruct (optionstr action position) as [o p'].
  assert (M : metavar_of action = Ok kind).
  { unfold metavar_of. rewrite Hm. cbn [bind].
    destruct m as [|c m].
    - simpl in Hl. subst kind.
      destruct Hin as [H|[H|[H|[H|[]]]]]; discriminate.
    - cbn [PyStr.is_empty negb]. rewrite Hl.
      destruct Hin as [H|[H|[H|[H|[]]]]]; inversion H; reflexivity. }
  rewrite M. cbn [bind]. unfold completion. rewrite Hc.
  destruct Hin as [H|[H|[H|[H|[]]]]]; inversion H; reflexivity.
Qed.

Lemma named_metavar_completion_witness :
  flag_of file_option 1
  = (prefix <- prefix file_option ;;
     Ok (prefix ++ fst (optionstr file_option 1) ++ helpstr file_option
           ++ ": :" ++ "_files" ++ "'",
         snd (optionstr file_option 1))).
Proof.
  apply (named_metavar_completion file_option 1 "FILE" "file" "_files");
    [left; reflexivity | reflexivity | reflexivity | reflexivity].
Defined.

Example file_option_directive :
  flag_of file_option 1 = Ok ("--out'[where to write]: :_files'", 1).
Proof. reflexivity. Qed.

(** ** The template and the destination *)

Lemma replace_absent (old new s : string) :
  old <> "" ->
  PyStr.contains old s = false ->
  PyStr.replace old new s = s.
Proof.
  intros Hold. destruct old as [|a old]; [contradiction|].
  unfold PyStr.replace.
  induction s as [|c s IH]; intros H; [reflexivity|].
  rewrite replace_from_cons. simpl in H.
  apply orb_false_iff in H. destruct H as [Hhead Htail].
  change (PyStr.startswith (String a old) (String c s))
    with (Ascii.eqb a c && PyStr.startswith old s)%bool.
  rewrite Hhead. now rewrite (IH Htail).
Qed.

(** X10: a template in which neither placeholder occurs comes out of the
    substitution unchanged, whatever the program names and directives. *)
Theorem substitute_without_placeholders
  (template : string) (BINNAMES flags : list string) :
  PyStr.contains programs_token template = false ->
  PyStr.contains flags_token template = false ->
  substitute template BINNAMES flags = template.
Proof.
  intros Hp Hf. unfold substitute.
  rewrite (replace_absent programs_token _ template) by (discriminate || exact Hp).
  apply replace_absent; [discriminate | exact Hf].
Qed.

Lemma substitute_without_placeholders_witness :
  substitute "#compdef {programs} {flags}" ["pdd"] ["-x'"]
    = "#compdef {programs} {flags}".
Proof.
  apply (substitute_without_placeholders "#compdef {programs} {flags}");
    reflexivity.
Defined.

Lemma write_out_events (env : environment) (dest text : string) :
  (forall ev, In ev (fst (write_out env dest text)) ->
     match ev with
     | OpenedForWriting path => path = dest /\ dest <> "-"
     | WroteFile path _ => path = dest /\ dest <> "-"
     | WroteStdout _ => dest = "-"
     end)
  /\ (snd (write_out env dest text) = Ok tt ->
      fst (write_out env dest text)
      = if string_eqb dest "-" then [WroteStdout text]
        else [OpenedForWriting dest; WroteFile dest text]).
Proof.
  unfold write_out, string_eqb.
  destruct (String.eqb dest "-") eqn:E; cbn [negb].
  - apply String.eqb_eq in E.
    destruct (write_stdout env text); cbn [fst snd].
    + split; [|reflexivity]. intros ev [<-|[]]. exact E.
    + split; [intros ev [] | discriminate].
  - apply String.eqb_neq in E.
    destruct (open_for_writing env dest); cbn [fst snd];
      [|split; [intros ev [] | discriminate]].
    destruct (write_file env dest text); cbn [fst snd].
    + split; [|reflexivity].
      intros ev [<-|[<-|[]]]; split; (reflexivity || exact E).
    + split; [|discriminate].
      intros ev [<-|[]]; split; (reflexivity || exact E).
Qed.

(** X11: whatever the outside answers, the run opens and writes no file
    other than the destination, and none at all when the destination is
    [-]; a run that ends without an exception has written the template
    with both substitutions made, once, to the destination. *)
Theorem script_touches_only_destination
  (env : environment) (actions : list Action) (BINNAMES : list string)
  (ZSH_COMPLETION_FILE : string) :
  (forall ev, In ev (fst (script env actions BINNAMES ZSH_COMPLETION_FILE)) ->
     match ev with
     | OpenedForWriting path =>
         path = ZSH_COMPLETION_FILE /\ ZSH_COMPLETION_FILE <> "-"
     | WroteFile path _ =>
         path = ZSH_COMPLETION_FILE /\ ZSH_COMPLETION_FILE <> "-"
     | WroteStdout _ => ZSH_COMPLETION_FILE = "-"
     end)
  /\ (snd (script env actions BINNAMES ZSH_COMPLETION_FILE) = Ok tt ->
      exists flags position template,
        loop actions [] 1 = Ok (flags, position)
        /\ read_template env = Ok template
        /\ fst (script env actions BINNAMES ZSH_COMPLETION_FILE)
           = if string_eqb ZSH_COMPLETION_FILE "-"
             then [WroteStdout (substitute template BINNAMES flags)]
             else [OpenedForWriting ZSH_COMPLETION_FILE;
                   WroteFile ZSH_COMPLETION_FILE
                     (substitute template BINNAMES flags)]).
Proof.
  unfold script.
  destruct (loop actions [] 1) as [[flags position]|e]; cbn [fst snd];
    [|split; [intros ev [] | discriminate]].
  destruct (read_template env) as [template|e]; cbn [fst snd];
    [|split; [intros ev [] | discriminate]].
  destruct (write_out_events env ZSH_COMPLETION_FILE
              (substitute template BINNAMES flags)) as [Hev Hok].
  split; [exact Hev|].
  intros H. exists flags, position, template.
  split; [reflexivity|]. split; [reflexivity|]. exact (Hok H).
Qed.

Lemma script_touches_only_destination_witness :
  exists flags position template,
    loop [help_flag; one_alias] [] 1 = Ok (flags, position)
    /\ read_template (friendly "{{flags}}") = Ok template
    /\ fst (script (friendly "{{flags}}") [help_flag; one_alias] ["pdd"] "_pdd")
       = if string_eqb "_pdd" "-"
         then [WroteStdout (substitute template ["pdd"] flags)]
         else [OpenedForWriting "_pdd";
               WroteFile "_pdd" (substitute template ["pdd"] flags)].
Proof.
  apply (proj2 (script_touches_only_destination (friendly "{{flags}}")
                  [help_flag; one_alias] ["pdd"] "_pdd")).
  reflexivity.
Defined.

Example script_runs :
  script (friendly "{{programs}}: {{flags}}") [one_alias] ["pdd"] "-"
    = ([WroteStdout "pdd: -x':nonetype'"], Ok tt)
  /\ script (friendly "{{programs}}: {{flags}}") [one_alias] ["pdd"] "_pdd"
     = ([OpenedForWriting "_pdd"; WroteFile "_pdd" "pdd: -x':nonetype'"], Ok tt)
  /\ script no_template [one_alias] ["pdd"] "_pdd" = ([], Raise OSError)
  /\ script no_template [partial_option] ["pdd"] "_pdd"
     = ([], Raise AttributeError).
Proof. repeat split. Qed.

(** * Further properties of the date helpers *)

Lemma range_empty (lo hi : Z) : hi <= lo -> PyStr.range lo hi = [].
Proof.
  intros H. unfold PyStr.range.
  replace (Z.to_nat (hi - lo)) with 0%nat by lia. reflexivity.
Qed.

Lemma range_cons (lo hi : Z) :
  lo < hi -> PyStr.range lo hi = lo :: PyStr.range (lo + 1) hi.
Proof.
  intros H. unfold PyStr.range.
  replace (Z.to_nat (hi - lo)) with (S (Z.to_nat (hi - (lo + 1)))) by lia.
  cbn [seq map]. f_equal; [lia|].
  rewrite <- seq_shift, map_map.
  apply map_ext. intros i. lia.
Qed.

Lemma days_matching_empty (test : Z -> bool) (o1 o2 : Z) :
  o2 < o1 -> days_matching test o1 o2 = 0.
Proof.
  intros H. unfold days_matching. rewrite range_empty by lia. reflexivity.
Qed.

Lemma days_matching_step (test : Z -> bool) (o1 o2 : Z) :
  o1 <= o2 ->
  days_matching test o1 o2
  = (if test ((o1 + 6) mod 7) then 1 else 0) + days_matching test (o1 + 1) o2.
Proof.
  intros H. unfold days_matching. rewrite range_cons by lia.
  cbn [filter]. destruct (test ((o1 + 6) mod 7)); cbn [List.length]; lia.
Qed.

Lemma days_matching_bounds (test : Z -> bool) (o1 o2 : Z) :
  0 <= days_matching test o1 o2 <= Z.max 0 (o2 + 1 - o1).
Proof.
  unfold days_matching. split; [lia|].
  pose proof (filter_length_le (fun o => test ((o + 6) mod 7))
                (PyStr.range o1 (o2 + 1))) as H.
  unfold PyStr.range in H at 2. rewrite length_map, length_seq in H. lia.
Qed.

Lemma add_one_day_Ok (d d' : datetime) :
  add_one_day d = Ok d' -> toordinal d' = toordinal d + 1.
Proof.
  unfold add_one_day.
  destruct ((1 <=? toordinal d + 1) && (toordinal d + 1 <=? MAXORDINAL));
    intros H; inversion H; reflexivity.
Qed.

Lemma add_one_day_Raise (d : datetime) (e : exn) :
  add_one_day d = Raise e ->
  e = OverflowError /\ (toordinal d < 0 \/ MAXORDINAL <= toordinal d).
Proof.
  unfold add_one_day.
  destruct ((1 <=? toordinal d + 1) && (toordinal d + 1 <=? MAXORDINAL)) eqn:C;
    intros H; inversion H. split; [reflexivity|].
  apply andb_false_iff in C. destruct C as [C|C]; apply Z.leb_gt in C; lia.
Qed.

(** The loop, when it cannot run past the last day of the calendar. *)
Lemma count_days_value (test : Z -> bool) (d1 d2 : datetime) (count : Z) :
  0 <= toordinal d1 ->
  toordinal d2 < MAXORDINAL ->
  count_days test d1 d2 count
  = Ok (count + days_matching test (toordinal d1) (toordinal d2)).
Proof.
  funelim (count_days test d1 d2 count); intros Hlo Hmax.
  - rewrite days_matching_empty by lia. f_equal. lia.
  - match goal with
    | E : add_one_day _ = Ok _ |- _ => pose proof (add_one_day_Ok _ _ E) as E1
    end.
    rewrite H by lia. rewrite E1.
    rewrite (days_matching_step test (toordinal d1) (toordinal d2)) by lia.
    unfold weekday.
    destruct (test ((toordinal d1 + 6) mod 7)); f_equal; lia.
  - match goal with
    | E : add_one_day _ = Raise _ |- _ =>
        pose proof (add_one_day_Raise _ _ E) as [_ E1]
    end.
    lia.
Qed.

Lemma days_before_month_table (year month : Z) :
  1 <= month <= 12 ->
  days_before_month year month
  = match month with
    | 1 => 0 | 2 => 31 | 3 => 59 | 4 => 90 | 5 => 120 | 6 => 151 | 7 => 181
    | 8 => 212 | 9 => 243 | 10 => 273 | 11 => 304 | _ => 334
    end
    + (if (2 <? month) && is_leap year then 1 else 0).
Proof.
  intros Hm.
  assert (M : month = 1 \/ month = 2 \/ month = 3 \/ month = 4 \/ month = 5
              \/ month = 6 \/ month = 7 \/ month = 8 \/ month = 9
              \/ month = 10 \/ month = 11 \/ month = 12) by lia.
  unfold days_before_month, days_in_month.
  repeat (destruct M as [M|M];
          [subst month; simpl; destruct (is_leap year); reflexivity|]).
  subst month; simpl; destruct (is_leap year); reflexivity.
Qed.

Lemma is_leap_true (year : Z) :
  is_leap year = true ->
  year mod 4 = 0 /\ (year mod 100 <> 0 \/ year mod 400 = 0).
Proof.
  unfold is_leap. intros H. apply andb_true_iff in H. destruct H as [H4 H].
  apply Z.eqb_eq in H4. split; [exact H4|].
  apply orb_true_iff in H. destruct H as [H|H].
  - left. apply negb_true_iff, Z.eqb_neq in H. exact H.
  - right. apply Z.eqb_eq in H. exact H.
Qed.

Lemma day_of_year_bounds (year month day : Z) :
  1 <= month <= 12 -> 1 <= day <= days_in_month year month ->
  1 <= days_before_month year month + day
    <= 365 + (if is_leap year then 1 else 0).
Proof.
  intros Hm Hd. rewrite days_before_month_table by exact Hm.
  assert (M : month = 1 \/ month = 2 \/ month = 3 \/ month = 4 \/ month = 5
              \/ month = 6 \/ month = 7 \/ month = 8 \/ month = 9
              \/ month = 10 \/ month = 11 \/ month = 12) by lia.
  unfold days_in_month in Hd. revert Hd.
  repeat (destruct M as [M|M];
          [subst month; destruct (is_leap year);
           cbv -[Z.add Z.le Z.lt]; lia|]).
  subst month; destruct (is_leap year); cbv -[Z.add Z.le Z.lt]; lia.
Qed.

(** Every date of the calendar has an ordinal between that of 0001-01-01
    and that of 9999-12-31. *)
Lemma ymd2ord_bounds (year month day : Z) :
  MINYEAR <= year <= MAXYEAR -> 1 <= month <= 12 ->
  1 <= day <= days_in_month year month ->
  1 <= ymd2ord year month day <= MAXORDINAL.
Proof.
  unfold MINYEAR, MAXYEAR, MAXORDINAL. intros Hy Hm Hd.
  pose proof (day_of_year_bounds year month day Hm Hd) as L.
  pose proof (is_leap_true year) as Leap.
  unfold ymd2ord, days_before_year.
  destruct (is_leap year); [specialize (Leap eq_refl)|clear Leap];
    Z.div_mod_to_equations; lia.
Qed.

Lemma make_datetime_bounds (year month day : Z) (d : datetime) :
  make_datetime year month day = Ok d -> 1 <= toordinal d <= MAXORDINAL.
Proof.
  unfold make_datetime.
  destruct ((MINYEAR <=? year) && (year <=? MAXYEAR) && (1 <=? month)
            && (month <=? 12) && (1 <=? day)
            && (day <=? days_in_month year month)) eqn:C;
    intros H; inversion H; subst d. simpl.
  repeat (apply andb_true_iff in C; destruct C as [C ?]).
  apply ymd2ord_bounds; lia.
Qed.

Lemma strptime_bounds (s : string) (d : datetime) :
  strptime s = Ok d -> 1 <= toordinal d <= MAXORDINAL.
Proof.
  unfold strptime.
  match goal with
  | |- match ?m with _ => _ end = _ -> _ => destruct m as [[[[y mo] dd] rest]|]
  end; [|discriminate].
  destruct rest; [apply make_datetime_bounds | discriminate].
Qed.

Lemma add_one_day_Ok_max (d d' : datetime) :
  add_one_day d = Ok d' -> toordinal d + 1 <= MAXORDINAL.
Proof.
  unfold add_one_day.
  destruct ((1 <=? toordinal d + 1) && (toordinal d + 1 <=? MAXORDINAL)) eqn:C;
    intros H; inversion H.
  apply andb_true_iff in C. destruct C as [_ C]. apply Z.leb_le in C. exact C.
Qed.

Lemma count_days_overflow (test : Z -> bool) (d1 d2 : datetime) (count : Z) :
  toordinal d2 = MAXORDINAL ->
  0 <= toordinal d1 <= toordinal d2 ->
  count_days test d1 d2 count = Raise OverflowError.
Proof.
  funelim (count_days test d1 d2 count); intros Hmax Hle.
  - lia.
  - match goal with
    | E : add_one_day _ = Ok _ |- _ =>
        pose proof (add_one_day_Ok _ _ E) as E1;
        pose proof (add_one_day_Ok_max _ _ E) as E2
    end.
    apply H; [exact Hmax | lia].
  - match goal with
    | E : add_one_day _ = Raise _ |- _ =>
        pose proof (add_one_day_Raise _ _ E) as [-> _]
    end.
    reflexivity.
Qed.

Lemma weekday_next (o : Z) : (o + 1 + 6) mod 7 = ((o + 6) mod 7 + 1) mod 7.
Proof.
  rewrite Z.add_mod_idemp_l by lia. f_equal. lia.
Qed.

Lemma days_matching_by_weekday (test : Z -> bool) (n : nat) :
  forall o,
    days_matching test o (o + Z.of_nat n - 1)
    = weekdays_matching test n ((o + 6) mod 7).
Proof.
  induction n as [|n IH]; intros o.
  - apply days_matching_empty. lia.
  - rewrite days_matching_step by lia.
    cbn [weekdays_matching]. rewrite <- weekday_next, <- IH.
    do 2 f_equal. lia.
Qed.

Ltac weekday_literals :=
  repeat match goal with
         | |- context [Z.modulo ?a 7] =>
             let v := eval vm_compute in (Z.modulo a 7) in
             change (Z.modulo a 7) with v
         end.

Lemma weekdays_matching_week (test : Z -> bool) (w : Z) :
  0 <= w < 7 ->
  weekdays_matching test 7 w = weekdays_matching test 7 0.
Proof.
  intros H.
  assert (C : w = 0 \/ w = 1 \/ w = 2 \/ w = 3 \/ w = 4 \/ w = 5 \/ w = 6) by lia.
  repeat (destruct C as [C|C]; [subst w; cbn; lia|]).
  subst w; cbn; lia.
Qed.

Lemma weekdays_matching_add_week (test : Z -> bool) (n : nat) (w : Z) :
  0 <= w < 7 ->
  weekdays_matching test (7 + n) w
  = weekdays_matching test 7 w + weekdays_matching test n w.
Proof.
  intros H.
  assert (C : w = 0 \/ w = 1 \/ w = 2 \/ w = 3 \/ w = 4 \/ w = 5 \/ w = 6) by lia.
  repeat (destruct C as [C|C];
          [subst w; cbn [weekdays_matching Nat.add]; weekday_literals; lia|]).
  subst w; cbn [weekdays_matching Nat.add]; weekday_literals; lia.
Qed.

Lemma weekdays_matching_weeks (test : Z -> bool) (k : nat) :
  forall w, 0 <= w < 7 ->
    weekdays_matching test (7 * k) w
    = Z.of_nat k * weekdays_matching test 7 0.
Proof.
  induction k as [|k IH]; intros w H.
  - reflexivity.
  - replace (7 * S k)%nat with (7 + 7 * k)%nat by lia.
    rewrite weekdays_matching_add_week by exact H.
    rewrite (IH w H), (weekdays_matching_week test w H). lia.
Qed.

(** X12: the number of weeks is the number of days floor-divided by 7:
    it is not negative, and the days exceed seven times the weeks by less
    than 7; the days are never more than from 0001-01-01 to 9999-12-31. *)
Theorem weeks_are_whole_sevens (date1 date2 : string) (days : Z) :
  days_between_dates date1 date2 = Ok days ->
  exists weeks,
    weeks_between_dates date1 date2 = Ok weeks
    /\ 0 <= weeks
    /\ 7 * weeks <= days < 7 * weeks + 7
    /\ 0 <= days < MAXORDINAL.
Proof.
  unfold days_between_dates, weeks_between_dates, date_difference, sub_days.
  destruct (strptime date1) as [d1|] eqn:E1; [|discriminate].
  destruct (strptime date2) as [d2|] eqn:E2; [|discriminate].
  cbn [bind]. intros H. inversion H as [Hd].
  apply strptime_bounds in E1, E2.
  exists (Z.abs (toordinal d2 - toordinal d1) / 7).
  split; [reflexivity|].
  pose proof (Z.abs_nonneg (toordinal d2 - toordinal d1)).
  assert (Z.abs (toordinal d2 - toordinal d1) < MAXORDINAL) by lia.
  unfold MAXORDINAL in *.
  Z.div_mod_to_equations. lia.
Qed.

Lemma weeks_are_whole_sevens_witness :
  exists weeks,
    weeks_between_dates "2023-01-01" "2023-12-31" = Ok weeks
    /\ 0 <= weeks
    /\ 7 * weeks <= 364 < 7 * weeks + 7
    /\ 0 <= 364 < MAXORDINAL.
Proof.
  apply (weeks_are_whole_sevens "2023-01-01" "2023-12-31" 364).
  vm_compute. reflexivity.
Defined.

(** X13: when both strings parse and the end date is before 9999-12-31,
    [count_sundays] returns the number of days from the start date to the
    end date, both included, that are Sundays, and [working_days_between]
    the number of those that are Monday to Friday. *)
Theorem counts_are_matching_days
  (start_date end_date : string) (d1 d2 : datetime) :
  strptime start_date = Ok d1 ->
  strptime end_date = Ok d2 ->
  toordinal d2 < MAXORDINAL ->
  count_sundays start_date end_date
    = Ok (days_matching (fun wd => wd =? 6) (toordinal d1) (toordinal d2))
  /\ working_days_between start_date end_date
     = Ok (days_matching (fun wd => wd <? 5) (toordinal d1) (toordinal d2)).
Proof.
  intros H1 H2 Hmax. unfold count_sundays, working_days_between.
  rewrite H1, H2. simpl.
  apply strptime_bounds in H1.
  split; rewrite count_days_value by lia; reflexivity.
Qed.

Lemma counts_are_matching_days_witness :
  count_sundays "2023-01-01" "2023-01-15"
    = Ok (days_matching (fun wd => wd =? 6) 738521 738535)
  /\ working_days_between "2023-01-01" "2023-01-15"
     = Ok (days_matching (fun wd => wd <? 5) 738521 738535).
Proof.
  apply (counts_are_matching_days "2023-01-01" "2023-01-15"
           (mkDatetime 738521) (mkDatetime 738535));
    [vm_compute; reflexivity | vm_compute; reflexivity | vm_compute; reflexivity].
Defined.

(** X14: with 9999-12-31 as the end date, [count_sundays] and
    [working_days_between] end in [OverflowError] for every start date
    that parses: stepping past the last day cannot be done. *)
Theorem counts_overflow_at_last_day (start_date : string) (d1 : datetime) :
  strptime start_date = Ok d1 ->
  count_sundays start_date "9999-12-31" = Raise OverflowError
  /\ working_days_between start_date "9999-12-31" = Raise OverflowError.
Proof.
  intros H1. unfold count_sundays, working_days_between. rewrite H1.
  change (strptime "9999-12-31") with (Ok (mkDatetime MAXORDINAL)).
  simpl. apply strptime_bounds in H1.
  split; apply count_days_overflow; simpl; (reflexivity || lia).
Qed.

Lemma counts_overflow_at_last_day_witness :
  count_sundays "9999-12-01" "9999-12-31" = Raise OverflowError
  /\ working_days_between "9999-12-01" "9999-12-31" = Raise OverflowError.
Proof.
  apply (counts_overflow_at_last_day "9999-12-01" (mkDatetime 3652029)).
  vm_compute. reflexivity.
Defined.

Lemma sundays_per_week : weekdays_matching (fun wd => wd =? 6) 7 0 = 1.
Proof. reflexivity. Qed.

Lemma working_days_per_week : weekdays_matching (fun wd => wd <? 5) 7 0 = 5.
Proof. reflexivity. Qed.

(** X15: over a whole number [k] of weeks (the end date before
    9999-12-31), there are [k] Sundays and [5 * k] working days, whatever
    the weekday of the start date. *)
Theorem whole_weeks_counts
  (start_date end_date : string) (d1 d2 : datetime) (k : Z) :
  strptime start_date = Ok d1 ->
  strptime end_date = Ok d2 ->
  toordinal d2 < MAXORDINAL ->
  0 <= k ->
  toordinal d2 + 1 - toordinal d1 = 7 * k ->
  count_sundays start_date end_date = Ok k
  /\ working_days_between start_date end_date = Ok (5 * k).
Proof.
  intros H1 H2 Hmax Hk Hlen. unfold count_sundays, working_days_between.
  rewrite H1, H2. cbn [bind].
  apply strptime_bounds in H1.
  assert (W : 0 <= (toordinal d1 + 6) mod 7 < 7) by (apply Z.mod_pos_bound; lia).
  split; rewrite count_days_value by lia;
    replace (toordinal d2)
      with (toordinal d1 + Z.of_nat (7 * Z.to_nat k) - 1) by lia;
    rewrite days_matching_by_weekday, (weekdays_matching_weeks _ _ _ W);
    [rewrite sundays_per_week | rewrite working_days_per_week];
    f_equal; lia.
Qed.

Lemma whole_weeks_counts_witness :
  count_sundays "2023-01-04" "2023-01-17" = Ok 2
  /\ working_days_between "2023-01-04" "2023-01-17" = Ok (5 * 2).
Proof.
  apply (whole_weeks_counts "2023-01-04" "2023-01-17"
           (mkDatetime 738524) (mkDatetime 738537) 2);
    [vm_compute; reflexivity | vm_compute; reflexivity
    | vm_compute; reflexivity | lia | simpl; lia].
Defined.

Lemma filter_disjoint_length {A : Type} (f g : A -> bool) (l : list A) :
  (forall x, f x && g x = false) ->
  (List.length (filter f l) + List.length (filter g l) <= List.length l)%nat.
Proof.
  intros D. induction l as [|x l IH]; [reflexivity|].
  cbn [filter]. specialize (D x).
  destruct (f x), (g x); try discriminate; cbn [List.length]; lia.
Qed.

(** X16: from a start date to a later or equal end date before
    9999-12-31, the Sundays and the working days together are never more
    than the days of the range, which are [days_between_dates] plus one. *)
Theorem sundays_and_working_days_within_range
  (start_date end_date : string) (d1 d2 : datetime) :
  strptime start_date = Ok d1 ->
  strptime end_date = Ok d2 ->
  toordinal d1 <= toordinal d2 < MAXORDINAL ->
  exists sundays working days,
    count_sundays start_date end_date = Ok sundays
    /\ working_days_between start_date end_date = Ok working
    /\ days_between_dates start_date end_date = Ok days
    /\ 0 <= sundays /\ 0 <= working
    /\ sundays + working <= days + 1.
Proof.
  intros H1 H2 Hle.
  exists (days_matching (fun wd => wd =? 6) (toordinal d1) (toordinal d2)),
         (days_matching (fun wd => wd <? 5) (toordinal d1) (toordinal d2)),
         (Z.abs (toordinal d2 - toordinal d1)).
  unfold count_sundays, working_days_between, days_between_dates,
    date_difference, sub_days.
  rewrite H1, H2. cbn [bind].
  apply strptime_bounds in H1.
  rewrite !count_days_value by lia.
  repeat split; try (unfold days_matching; lia).
  unfold days_matching.
  pose proof (filter_disjoint_length
                (fun o => (o + 6) mod 7 =? 6) (fun o => (o + 6) mod 7 <? 5)
                (PyStr.range (toordinal d1) (toordinal d2 + 1))) as F.
  unfold PyStr.range in F at 3. rewrite length_map, length_seq in F.
  assert (D : forall x, ((x + 6) mod 7 =? 6) && ((x + 6) mod 7 <? 5) = false).
  { intros x. destruct ((x + 6) mod 7 =? 6) eqn:E; [|reflexivity].
    apply Z.eqb_eq in E. rewrite E. reflexivity. }
  specialize (F D). lia.
Qed.

Lemma sundays_and_working_days_within_range_witness :
  exists sundays working days,
    count_sundays "2023-01-01" "2023-12-31" = Ok sundays
    /\ working_days_between "2023-01-01" "2023-12-31" = Ok working
    /\ days_between_dates "2023-01-01" "2023-12-31" = Ok days
    /\ 0 <= sundays /\ 0 <= working
    /\ sundays + working <= days + 1.
Proof.
  apply (sundays_and_working_days_within_range "2023-01-01" "2023-12-31"
           (mkDatetime 738521) (mkDatetime 738885));
    [vm_compute; reflexivity | vm_compute; reflexivity
    | split; vm_compute; [discriminate | reflexivity]].
Defined.

(** * Properties of the time helper *)

Lemma strptime_time_raises (s : string) (e : exn) :
  strptime_time s = Raise e -> e = ValueError.
Proof.
  unfold strptime_time.
  match goal with
  | |- match ?m with _ => _ end = _ -> _ => destruct m as [[[[h mi] sec] rest]|]
  end.
  - destruct rest.
    + destruct ((0 <=? h) && (h <=? 23) && (0 <=? mi) && (mi <=? 59)
                && (0 <=? sec) && (sec <=? 59));
        intros H; inversion H; reflexivity.
    + intros H; inversion H; reflexivity.
  - intros H; inversion H; reflexivity.
Qed.

Lemma strptime_time_bounds (s : string) (t : Z) :
  strptime_time s = Ok t -> 0 <= t <= 86399.
Proof.
  unfold strptime_time.
  match goal with
  | |- match ?m with _ => _ end = _ -> _ => destruct m as [[[[h mi] sec] rest]|]
  end; [|discriminate].
  destruct rest; [|discriminate].
  destruct ((0 <=? h) && (h <=? 23) && (0 <=? mi) && (mi <=? 59)
            && (0 <=? sec) && (sec <=? 59)) eqn:C;
    intros H; inversion H.
  repeat (apply andb_true_iff in C; destruct C as [C ?]).
  lia.
Qed.

(** X17: [time_difference] does not depend on the order of its arguments,
    and the difference it returns is at least 0 and less than one day,
    in seconds. *)
Theorem time_difference_symmetric_and_bounded (time1 time2 : string) :
  time_difference time1 time2 = time_difference time2 time1
  /\ forall seconds,
       time_difference time1 time2 = Ok seconds -> 0 <= seconds <= 86399.
Proof.
  unfold time_difference.
  destruct (strptime_time time1) as [t1|e1] eqn:E1;
    destruct (strptime_time time2) as [t2|e2] eqn:E2; cbn [bind].
  - split; [f_equal; lia|].
    intros seconds H. inversion H.
    apply strptime_time_bounds in E1, E2. lia.
  - split; [reflexivity | discriminate].
  - split; [reflexivity | discriminate].
  - apply strptime_time_raises in E1, E2. subst.
    split; [reflexivity | discriminate].
Qed.

Lemma time_difference_symmetric_and_bounded_witness : 0 <= 8100 <= 86399.
Proof.
  apply (proj2 (time_difference_symmetric_and_bounded "12:30:00" "14:45:00")
           8100).
  vm_compute. reflexivity.
Defined.

Example time_difference_example :
  time_difference "12:30:00" "14:45:00" = Ok 8100
  /\ time_difference "14:45:00" "12:30:00" = Ok 8100
  /\ time_difference "9:5:7" "09:05:07" = Ok 0
  /\ time_difference "24:00:00" "00:00:00" = Raise ValueError
  /\ time_difference "23:59:60" "00:00:00" = Raise ValueError.
Proof. repeat split; vm_compute; reflexivity. Qed.
